(** * UpdateBookModal: the book-update form of the library catalogue

    A shallow embedding of [src/elements/modals/UpdateBookModal.tsx].

    The component is modelled as a state machine.  Its state holds what the
    hooks of the component hold (the form values of [useForm], the status of
    the [useUpdateBookMutation] hook, the continuation of a suspended
    [onSubmit]) together with the current route and a chronological log of
    the effects the component performed (calls of [updateBook], toasts,
    navigations).  Its events are the user's edits, the submit event of
    the form, and the two ways the remote call can complete.  The browser
    stands in front of the form: a press of the submit button reaches the
    form as a submit event only when the browser's own validation of the
    number input lets it ([press], [browserRun]).

    JavaScript numbers are IEEE 754 doubles and are modelled by Rocq's
    primitive floats, so that [copies > 0], [!==] and [isNaN] are the
    operations the program runs. *)

From Stdlib Require Import String List Bool ZArith Lia.
From Stdlib Require Import PrimFloat SpecFloat FloatOps FloatAxioms.
Import ListNotations.
Open Scope string_scope.

(** ** JavaScript values and objects *)

Module JS.

Definition number := float.

Inductive value :=
| VUndefined
| VNull
| VBool (b : bool)
| VNum (n : number)
| VStr (s : string).

(** [a === b]: no conversion; numbers compare as doubles, so that
    [NaN === NaN] is false and [0 === -0] is true. *)
Definition strict_eq (a b : value) : bool :=
  match a, b with
  | VUndefined, VUndefined => true
  | VNull, VNull => true
  | VBool x, VBool y => Bool.eqb x y
  | VNum x, VNum y => PrimFloat.eqb x y
  | VStr x, VStr y => String.eqb x y
  | _, _ => false
  end.

(** [a !== b] *)
Definition strict_neq (a b : value) : bool := negb (strict_eq a b).

(** [a > b] on numbers. *)
Definition gt (a b : number) : bool := PrimFloat.ltb b a.

(** [a < b] on numbers. *)
Definition lt (a b : number) : bool := PrimFloat.ltb a b.

(** [isNaN(n)] on a number. *)
Definition isNaN (n : number) : bool := PrimFloat.is_nan n.

(** [Number.isInteger(n)]: finite and without fractional part. *)
Definition isInteger (n : number) : bool :=
  match Prim2SF n with
  | S754_zero _ => true
  | S754_finite _ m e =>
      if (0 <=? e)%Z then true else (Z.pos m mod 2 ^ (- e) =? 0)%Z
  | _ => false
  end.

(** [Number.isFinite(n)]: neither [NaN] nor an infinity. *)
Definition isFinite (n : number) : bool :=
  match Prim2SF n with
  | S754_zero _ | S754_finite _ _ _ => true
  | _ => false
  end.

(** [x ?? d] where [None] stands for [undefined] or [null]. *)
Definition nullish {A} (x : option A) (d : A) : A :=
  match x with
  | Some a => a
  | None => d
  end.

(** [x || d] on an optional string: the empty string is falsy too. *)
Definition or_string (x : option string) (d : string) : string :=
  match x with
  | None => d
  | Some EmptyString => d
  | Some s => s
  end.

(** An object with its own enumerable string keys in insertion order. *)
Definition obj := list (string * value).

(** [Object.keys(o)] *)
Definition keys (o : obj) : list string := map fst o.

Fixpoint lookup (o : obj) (key : string) : option value :=
  match o with
  | [] => None
  | (k, v) :: rest => if String.eqb k key then Some v else lookup rest key
  end.

(** [o[key]]: a missing property reads as [undefined]. *)
Definition get (o : obj) (key : string) : value :=
  match lookup o key with
  | Some v => v
  | None => VUndefined
  end.

(** [o[key] = v]: an existing property keeps its place, a new one goes
    last. *)
Fixpoint set (o : obj) (key : string) (v : value) : obj :=
  match o with
  | [] => [(key, v)]
  | (k, w) :: rest =>
      if String.eqb k key then (k, v) :: rest else (k, w) :: set rest key v
  end.

(** [{ ...o, ...src }]: the properties of [src] are copied over [o], in
    the order of [src]. *)
Definition spread (o src : obj) : obj :=
  fold_left (fun acc kv => set acc (fst kv) (snd kv)) src o.

End JS.

Import JS.

(** ** The record types of [@/types/types] *)

(** Modelled from the spec: the type declarations [IBook], [BookFormValues]
    and [IApiError] of [@/types/types].  A Book record has an identifier,
    title, author, ISBN, genre, description, a number of copies and an
    availability flag; the component reads the flag with [??], so the flag
    may be missing. *)
Module IBook.
Record t := mk {
  _id : string;
  title : string;
  author : string;
  genre : string;
  isbn : string;
  description : string;
  copies : number;
  available : option bool
}.
End IBook.

Module BookFormValues.
Record t := mk {
  title : string;
  author : string;
  isbn : string;
  genre : string;
  description : string;
  copies : number;
  available : bool
}.
End BookFormValues.

(** The error of a failed call: [error.data.message], where [data] and
    [message] may each be missing. *)
Module IApiError.
Record data_t := mkData { message : option string }.
Record t := mk { data : option data_t }.
End IApiError.

(** What a successful [updateBook(...).unwrap()] resolves to: an object
    whose [message] is read. *)
Module UpdateResponse.
Record t := mk { message : option string }.
End UpdateResponse.

(** The book as the object the component indexes with [book[typedKey]]. *)
Definition bookObject (book : IBook.t) : obj :=
  [ ("_id", VStr (IBook._id book));
    ("title", VStr (IBook.title book));
    ("author", VStr (IBook.author book));
    ("genre", VStr (IBook.genre book));
    ("isbn", VStr (IBook.isbn book));
    ("description", VStr (IBook.description book));
    ("copies", VNum (IBook.copies book));
    ("available", match IBook.available book with
                  | Some b => VBool b
                  | None => VUndefined
                  end) ].

(** The form values as an object; the keys are those of [defaultValues], in
    their order. *)
Definition formObject (v : BookFormValues.t) : obj :=
  [ ("title", VStr (BookFormValues.title v));
    ("author", VStr (BookFormValues.author v));
    ("isbn", VStr (BookFormValues.isbn v));
    ("genre", VStr (BookFormValues.genre v));
    ("description", VStr (BookFormValues.description v));
    ("copies", VNum (BookFormValues.copies v));
    ("available", VBool (BookFormValues.available v)) ].

(** ** The built-in validation of the form library

    The [rules] props of the component are declarative; what they mean is
    decided by react-hook-form's field validation, transcribed here for the
    two rules the component uses ([required] and [min]) on a controlled
    field, whose input value is the value held by the form. *)

Module RHF.

(** [isNullOrUndefined(inputValue)] *)
Definition isNullOrUndefined (inputValue : value) : bool :=
  match inputValue with
  | VUndefined | VNull => true
  | _ => false
  end.

(** A field is empty when [inputValue === '']. *)
Definition isEmpty (inputValue : value) : bool :=
  match inputValue with
  | VStr EmptyString => true
  | _ => false
  end.

(** The [required] rule fails on an empty, null or undefined value, and on
    the boolean [false]; it reports the rule's message. *)
Definition validateRequired (message : string) (inputValue : value)
  : option string :=
  if isEmpty inputValue
     || isNullOrUndefined inputValue
     || match inputValue with VBool b => negb b | _ => false end
  then Some message
  else None.

(** The [min] rule on a number: [exceedMin = valueNumber < min.value],
    computed only when the value is not [NaN]. *)
Definition validateMin (minValue : number) (message : string)
  (inputValue : number) : option string :=
  if isNaN inputValue then None
  else if lt inputValue minValue then Some message
  else None.

(** The first failing rule of a field gives its error. *)
Fixpoint firstError (checks : list (option string)) : option string :=
  match checks with
  | [] => None
  | Some message :: _ => Some message
  | None :: rest => firstError rest
  end.

(** The outcome of checking every field: one entry per field that breaks
    a rule. *)
Fixpoint collectErrors (fields : list (string * option string))
  : list (string * string) :=
  match fields with
  | [] => []
  | (name, Some message) :: rest => (name, message) :: collectErrors rest
  | (_, None) :: rest => collectErrors rest
  end.

End RHF.

(** ** The component *)

(** The [SelectItem]s of the genre select, each with its value and its
    label. *)
Definition genreOptions : list (string * string) :=
  [ ("FICTION", "Fiction");
    ("NON_FICTION", "Non-Fiction");
    ("SCIENCE", "Science");
    ("HISTORY", "History");
    ("BIOGRAPHY", "Biography");
    ("FANTASY", "Fantasy") ].

(** The fields that carry a [required] rule. *)
Definition requiredFields : list string :=
  [ "title"; "author"; "isbn"; "genre"; "copies" ].

(** The [rules] of the six [FormField]s checked on the current form
    values; the description field has none.  This is the check behind
    [formState.isValid] and behind [handleSubmit].  It is not the [errors]
    object the messages are shown from: with [mode: "onChange"] that one
    gets the entry of a field only once the field was edited or a submit
    was attempted. *)
Definition fieldErrors (v : BookFormValues.t) : list (string * string) :=
  RHF.collectErrors
    [ ("title",
       RHF.validateRequired "Title is required"
         (VStr (BookFormValues.title v)));
      ("author",
       RHF.validateRequired "Author is required"
         (VStr (BookFormValues.author v)));
      ("isbn",
       RHF.validateRequired "ISBN is required"
         (VStr (BookFormValues.isbn v)));
      ("genre",
       RHF.validateRequired "Genre is required"
         (VStr (BookFormValues.genre v)));
      ("description", None);
      ("copies",
       RHF.firstError
         [ RHF.validateRequired "Copies is required"
             (VNum (BookFormValues.copies v));
           RHF.validateMin 0%float "Copies cannot be negative"
             (BookFormValues.copies v) ]) ].

(** [formState.isValid]: no field breaks a rule. *)
Definition isValid (v : BookFormValues.t) : bool :=
  match fieldErrors v with
  | [] => true
  | _ :: _ => false
  end.

(** The effects the component performs, as they are logged. *)
Inductive effect :=
| UpdateBookCalled (arg : obj)
| ToastSuccess (message : string)
| ToastError (message : string)
| Navigated (to : string).

(** An async function body: the synchronous effects up to an [await] of
    [updateBook(arg).unwrap()], whose continuation runs only when the call
    resolves; a rejection rejects the whole function. *)
Inductive async :=
| Return
| toast_success (message : string) (k : async)
| navigate (to : string) (k : async)
| await_updateBook (arg : obj) (k : UpdateResponse.t -> async).

(** The status of the mutation hook. *)
Inductive mutation :=
| Uninitialized
| Pending
| Fulfilled (res : UpdateResponse.t)
| Rejected (error : IApiError.t).

Record ModalState := mkState {
  values : BookFormValues.t;
  status : mutation;
  awaiting : option (UpdateResponse.t -> async);
  route : string;
  log : list effect
}.

Definition isLoading (s : ModalState) : bool :=
  match status s with
  | Pending => true
  | _ => false
  end.

Definition withValues (s : ModalState) (v : BookFormValues.t) : ModalState :=
  mkState v (status s) (awaiting s) (route s) (log s).

Definition logged (s : ModalState) (e : effect) : ModalState :=
  mkState (values s) (status s) (awaiting s) (route s) (log s ++ [e]).

(** Runs an async body on the state up to its first [await]. *)
Fixpoint exec (p : async) (s : ModalState) : ModalState :=
  match p with
  | Return => s
  | toast_success message k => exec k (logged s (ToastSuccess message))
  | navigate to k =>
      exec k
        (mkState (values s) (status s) (awaiting s) to
           (log s ++ [Navigated to]))
  | await_updateBook arg k =>
      mkState (values s) Pending (Some k) (route s)
        (log s ++ [UpdateBookCalled arg])
  end.

(** What reaches the component: the change events of the fields, the
    submit event of the form, and the completion of the remote call. *)
Inductive event :=
| ChangeTitle (text : string)
| ChangeAuthor (text : string)
| ChangeIsbn (text : string)
| SelectGenre (item : nat)
| ChangeDescription (text : string)
| ChangeCopies (n : number)
| Submit
| Resolve (res : UpdateResponse.t)
| Reject (error : IApiError.t).

Section Modal.

(** The props of the component. *)
Variable book : IBook.t.

(** [useForm({ defaultValues })] *)
Definition defaultValues : BookFormValues.t :=
  BookFormValues.mk
    (IBook.title book)
    (IBook.author book)
    (IBook.isbn book)
    (IBook.genre book)
    (IBook.description book)
    (IBook.copies book)
    (nullish (IBook.available book) true).

(** [Object.keys(watchedValues).some(key => watchedValues[key] !== book[key])] *)
Definition hasChanged (watchedValues : BookFormValues.t) : bool :=
  existsb
    (fun key =>
       strict_neq (get (formObject watchedValues) key)
                  (get (bookObject book) key))
    (keys (formObject watchedValues)).

(** The [disabled] prop of the submit button (and of the [DialogClose]
    around it): [isLoading || !hasChanged || !isValid]. *)
Definition submitDisabled (s : ModalState) : bool :=
  isLoading s || negb (hasChanged (values s)) || negb (isValid (values s)).

(** The error toast of the [useEffect]: [error.data?.message], or the
    default text. *)
Definition errMsg (error : IApiError.t) : string :=
  or_string
    match IApiError.data error with
    | Some d => IApiError.message d
    | None => None
    end
    "Failed to update book".

(** The [useEffect] on [[isError, error]]: it runs when the hook's result
    changes, and toasts when the hook holds an error. *)
Definition errorEffect (s : ModalState) : ModalState :=
  match status s with
  | Rejected error => logged s (ToastError (errMsg error))
  | _ => s
  end.

(** What follows the [await] in [onSubmit]. *)
Definition onUpdated (res : UpdateResponse.t) : async :=
  toast_success
    (or_string (UpdateResponse.message res) "Book updated successfully")
    (navigate "/books" Return).

(** [onSubmit(formData)] *)
Definition onSubmit (formData : BookFormValues.t) : async :=
  let formData :=
    BookFormValues.mk
      (BookFormValues.title formData)
      (BookFormValues.author formData)
      (BookFormValues.isbn formData)
      (BookFormValues.genre formData)
      (BookFormValues.description formData)
      (BookFormValues.copies formData)
      (gt (BookFormValues.copies formData) 0%float) in
  await_updateBook
    (spread [("id", VStr (IBook._id book))] (formObject formData))
    onUpdated.

(** [handleSubmit(onSubmit)]: the form library validates the fields once
    more and calls [onSubmit] with a copy of the values when none fails. *)
Definition handleSubmit (s : ModalState) : ModalState :=
  if isValid (values s) then exec (onSubmit (values s)) s else s.

(** One event of the component.  A text input stores the text of its
    event; the genre select stores the value of the chosen item; the copies
    input stores [Number(e.target.value)], the number [n] of its event.
    [Submit] is the submit event, which goes to [handleSubmit]; a disabled
    submit button submits nothing.  Whether a press of the enabled button
    becomes a submit event is the browser's decision, see [press].  The
    completion of the remote call is felt only while a call is pending. *)
Definition step (s : ModalState) (e : event) : ModalState :=
  let v := values s in
  match e with
  | ChangeTitle text =>
      withValues s
        (BookFormValues.mk text (BookFormValues.author v)
           (BookFormValues.isbn v) (BookFormValues.genre v)
           (BookFormValues.description v) (BookFormValues.copies v)
           (BookFormValues.available v))
  | ChangeAuthor text =>
      withValues s
        (BookFormValues.mk (BookFormValues.title v) text
           (BookFormValues.isbn v) (BookFormValues.genre v)
           (BookFormValues.description v) (BookFormValues.copies v)
           (BookFormValues.available v))
  | ChangeIsbn text =>
      withValues s
        (BookFormValues.mk (BookFormValues.title v) (BookFormValues.author v)
           text (BookFormValues.genre v)
           (BookFormValues.description v) (BookFormValues.copies v)
           (BookFormValues.available v))
  | SelectGenre item =>
      match nth_error genreOptions item with
      | Some (genre, _) =>
          withValues s
            (BookFormValues.mk (BookFormValues.title v)
               (BookFormValues.author v) (BookFormValues.isbn v) genre
               (BookFormValues.description v) (BookFormValues.copies v)
               (BookFormValues.available v))
      | None => s
      end
  | ChangeDescription text =>
      withValues s
        (BookFormValues.mk (BookFormValues.title v) (BookFormValues.author v)
           (BookFormValues.isbn v) (BookFormValues.genre v)
           text (BookFormValues.copies v)
           (BookFormValues.available v))
  | ChangeCopies n =>
      withValues s
        (BookFormValues.mk (BookFormValues.title v) (BookFormValues.author v)
           (BookFormValues.isbn v) (BookFormValues.genre v)
           (BookFormValues.description v) n
           (BookFormValues.available v))
  | Submit => if submitDisabled s then s else handleSubmit s
  | Resolve res =>
      match status s, awaiting s with
      | Pending, Some k =>
          exec (k res)
            (mkState (values s) (Fulfilled res) None (route s) (log s))
      | _, _ => s
      end
  | Reject error =>
      match status s with
      | Pending =>
          errorEffect
            (mkState (values s) (Rejected error) None (route s) (log s))
      | _ => s
      end
  end.

(** The component when the dialog opens, at the route [location]. *)
Definition init (location : string) : ModalState :=
  mkState defaultValues Uninitialized None location [].

(** The state after a sequence of events. *)
Definition run (location : string) (events : list event) : ModalState :=
  fold_left step events (init location).

End Modal.

(** ** The browser in front of the form

    The copies field is rendered as [<input type="number" min={0}>] inside
    a [<form>] that does not set [noValidate], so a press of the submit
    button is validated by the browser before the submit event is fired, as
    the HTML standard has it.  The input shows the copies number of the
    form.  A number that is not finite is shown as the empty text, on which
    no constraint bears (the input itself is not [required]).  A finite
    number suffers a range underflow when it is below [min], which is 0,
    and a step mismatch unless it is a whole multiple of the default step
    1 counted from [min].  No other control of the form carries a
    constraint. *)
Definition nativeValid (v : BookFormValues.t) : bool :=
  let copies := BookFormValues.copies v in
  if isFinite copies
  then negb (lt copies 0%float) && isInteger copies
  else true.

Section Browser.

Variable book : IBook.t.

(** A press of the submit button: the submit event is fired only when the
    browser finds the form's controls valid. *)
Definition press (s : ModalState) : ModalState :=
  if nativeValid (values s) then step book s Submit else s.

(** One event as the browser delivers it; [Submit] stands for a press. *)
Definition browserStep (s : ModalState) (e : event) : ModalState :=
  match e with
  | Submit => press s
  | _ => step book s e
  end.

(** The state after a sequence of events in the browser. *)
Definition browserRun (location : string) (events : list event)
  : ModalState :=
  fold_left browserStep events (init book location).

End Browser.

(** ** Reading the log *)

Definition isCall (e : effect) : bool :=
  match e with
  | UpdateBookCalled _ => true
  | _ => false
  end.

Definition isToast (e : effect) : bool :=
  match e with
  | ToastSuccess _ | ToastError _ => true
  | _ => false
  end.

(** The number of [updateBook] calls made so far. *)
Definition callsStarted (s : ModalState) : nat :=
  length (filter isCall (log s)).

(** The number of calls whose completion the component has handled: each
    shows exactly one toast. *)
Definition callsCompleted (s : ModalState) : nat :=
  length (filter isToast (log s)).

(** The six genre values. *)
Definition genres : list string :=
  [ "FICTION"; "NON_FICTION"; "SCIENCE"; "HISTORY"; "BIOGRAPHY"; "FANTASY" ].

(** ** Test data *)

(** A book as the catalogue serves it. *)
Definition sampleBook : IBook.t :=
  IBook.mk "64f1" "Dune" "Frank Herbert" "FICTION" "9780441172719"
    "Desert planet" 3%float (Some true).

(** The same book without its availability flag. *)
Definition flaglessBook : IBook.t :=
  IBook.mk "64f1" "Dune" "Frank Herbert" "FICTION" "9780441172719"
    "Desert planet" 3%float None.

(** The user picks the third genre, sets the copies to zero and submits;
    [sampleArg] is the record that is sent. *)
Definition sampleEdit : list event :=
  [SelectGenre 2; ChangeCopies 0%float; Submit].

Definition sampleArg : obj :=
  [ ("id", VStr "64f1"); ("title", VStr "Dune");
    ("author", VStr "Frank Herbert"); ("isbn", VStr "9780441172719");
    ("genre", VStr "SCIENCE"); ("description", VStr "Desert planet");
    ("copies", VNum 0%float); ("available", VBool false) ].

(** A book whose genre is none of the offered ones. *)
Definition poetryBook : IBook.t :=
  IBook.mk "77a0" "Ariel" "Sylvia Plath" "POETRY" "9780571086269"
    "Poems" 3%float (Some true).


(** The user retitles the book and presses the submit button. *)
Definition sampleRename : list event := [ChangeTitle "Dune Messiah"; Submit].

(** The form after the title was cleared. *)
Definition untitled : ModalState :=
  run sampleBook "/books" [ChangeTitle ""].

(** ** What holds of every state the component can reach *)

Section Invariant.

Variable book : IBook.t.

(** The genre of the form is the book's own or one the select offers. *)
Definition genreFrom (v : BookFormValues.t) : Prop :=
  In (BookFormValues.genre v) genres \/
  BookFormValues.genre v = IBook.genre book.

(** A pending call is awaited by the rest of [onSubmit]; calls are made
    one at a time; every call so far was made by [onSubmit] on valid
    values. *)
Definition Inv (s : ModalState) : Prop :=
  (status s = Pending -> awaiting s = Some onUpdated) /\
  callsStarted s = callsCompleted s + (if isLoading s then 1 else 0) /\
  genreFrom (values s) /\
  (forall arg, In (UpdateBookCalled arg) (log s) ->
     exists formData,
       isValid formData = true /\
       genreFrom formData /\
       onSubmit book formData = await_updateBook arg onUpdated).

End Invariant.

(** ** What the user sees of a state, and what a log must look like *)

(** The text of the submit button: [isLoading ? "Updating..." : "Update"]. *)
Definition submitLabel (s : ModalState) : string :=
  if isLoading s then "Updating..." else "Update".

Definition isSuccess (e : effect) : bool :=
  match e with
  | ToastSuccess _ => true
  | _ => false
  end.

(** A log read as a sequence of rounds.  A round is a call answered by a
    success toast and the navigation to [/books], or a call answered by an
    error toast; the last call may still be unanswered.  The result tells
    whether it is; a log of any other shape gives [None]. *)
Fixpoint protocol (l : list effect) : option bool :=
  match l with
  | [] => Some false
  | UpdateBookCalled _ :: rest =>
      match rest with
      | [] => Some true
      | ToastSuccess _ :: Navigated to :: rest' =>
          if String.eqb to "/books" then protocol rest' else None
      | ToastError _ :: rest' => protocol rest'
      | _ => None
      end
  | _ => None
  end.

(** ** Facts about doubles *)

(** A value that is not [NaN] is not represented by [S754_nan]. *)
Lemma Prim2SF_not_nan (x : number) :
  isNaN x = false -> Prim2SF x <> S754_nan.
Proof.
  unfold isNaN, Prim2SF. intros ->.
  destruct (is_zero x); [discriminate|].
  destruct (is_infinity x); [discriminate|].
  destruct (Z.frexp x) as [r ex].
  destruct (shr_fexp _ _ _ _ _) as [shr e'].
  destruct (shr_m shr); discriminate.
Qed.

(** [NaN < y] is false. *)
Lemma lt_nan (x y : number) : isNaN x = true -> lt x y = false.
Proof.
  unfold isNaN, lt. intros Hnan.
  rewrite ltb_spec. unfold Prim2SF at 1. rewrite Hnan. reflexivity.
Qed.


(** A number other than [NaN] is strictly equal to itself. *)
Lemma eqb_refl_not_nan (x : number) :
  isNaN x = false -> PrimFloat.eqb x x = true.
Proof.
  intros Hnan. apply Prim2SF_not_nan in Hnan. rewrite eqb_spec.
  destruct (Prim2SF x) as [s|s| |s m e]; try congruence;
    try (destruct s; reflexivity).
  unfold SFeqb, SFcompare.
  rewrite Z.compare_refl, Pos.compare_cont_refl. destruct s; reflexivity.
Qed.

(** ** Facts about the component *)

Section ModalFacts.

Variable book : IBook.t.

(** The object [{ id: book._id, ...formData }] that [onSubmit] builds from
    the values it is given. *)
Lemma onSubmit_call (formData : BookFormValues.t) :
  onSubmit book formData =
  await_updateBook
    [ ("id", VStr (IBook._id book));
      ("title", VStr (BookFormValues.title formData));
      ("author", VStr (BookFormValues.author formData));
      ("isbn", VStr (BookFormValues.isbn formData));
      ("genre", VStr (BookFormValues.genre formData));
      ("description", VStr (BookFormValues.description formData));
      ("copies", VNum (BookFormValues.copies formData));
      ("available", VBool (gt (BookFormValues.copies formData) 0%float)) ]
    onUpdated.
Proof. reflexivity. Qed.

(** A submit event on an enabled submit button runs [onSubmit] up to its
    [await]. *)
Lemma step_submit_enabled (s : ModalState) :
  submitDisabled book s = false ->
  step book s Submit = exec (onSubmit book (values s)) s.
Proof.
  intros Hen. unfold step. rewrite Hen. unfold handleSubmit.
  unfold submitDisabled in Hen.
  apply orb_false_elim in Hen as [_ Hvalid].
  apply negb_false_iff in Hvalid. now rewrite Hvalid.
Qed.

(** A press of a disabled submit button changes nothing. *)
Lemma step_submit_disabled (s : ModalState) :
  submitDisabled book s = true -> step book s Submit = s.
Proof. intros Hdis. unfold step. now rewrite Hdis. Qed.

(** The values of a valid form pass every rule. *)
Lemma isValid_inv (v : BookFormValues.t) :
  isValid v = true ->
  BookFormValues.title v <> "" /\
  BookFormValues.author v <> "" /\
  BookFormValues.isbn v <> "" /\
  BookFormValues.genre v <> "" /\
  lt (BookFormValues.copies v) 0%float = false.
Proof.
  destruct v as [t a i g d c av]. unfold isValid, fieldErrors. cbn.
  destruct t; [discriminate|]. destruct a; [discriminate|].
  destruct i; [discriminate|]. destruct g; [discriminate|].
  cbn. unfold RHF.validateMin.
  destruct (isNaN c) eqn:Hnan.
  - intros _. repeat split; try discriminate. now apply lt_nan.
  - destruct (lt c 0%float) eqn:Hlt; [discriminate|].
    intros _. repeat split; try discriminate. exact Hlt.
Qed.

End ModalFacts.

Section Reachable.

Variable book : IBook.t.

Lemma run_snoc (location : string) (events : list event) (e : event) :
  run book location (events ++ [e]) =
  step book (run book location events) e.
Proof. unfold run. now rewrite fold_left_app. Qed.

(** Counts the calls and the toasts of a log that grew at its end. *)
Ltac count_log :=
  unfold callsStarted, callsCompleted, isLoading in *; cbn;
  rewrite !filter_app, !length_app; cbn.

(** The items of the select carry the six genre values. *)
Lemma genreOptions_genres (item : nat) (genre label : string) :
  nth_error genreOptions item = Some (genre, label) -> In genre genres.
Proof.
  do 6 (destruct item as [|item];
        [intros [= <- _]; cbn; tauto|]).
  destruct item; discriminate.
Qed.

Lemma Inv_init (location : string) : Inv book (init book location).
Proof.
  repeat split; cbn; try discriminate.
  - now right.
  - intros arg [].
Qed.

Lemma Inv_withValues (s : ModalState) (v : BookFormValues.t) :
  Inv book s -> genreFrom book v -> Inv book (withValues s v).
Proof.
  intros (Haw & Hcount & _ & Hcalls) Hg. repeat split; assumption.
Qed.

Lemma Inv_step (s : ModalState) (e : event) :
  Inv book s -> Inv book (step book s e).
Proof.
  intros HI. pose proof HI as (Haw & Hcount & Hgenre & Hcalls).
  destruct e; cbn [step];
    try (apply Inv_withValues; [exact HI|exact Hgenre]).
  - (* SelectGenre *)
    destruct (nth_error genreOptions item) as [[g l]|] eqn:Hitem;
      [|exact HI].
    apply Inv_withValues; [exact HI|]. left. cbn.
    eapply genreOptions_genres; eassumption.
  - (* Submit *)
    destruct (submitDisabled book s) eqn:Hdis; [exact HI|].
    unfold handleSubmit. destruct (isValid (values s)) eqn:Hvalid; [|exact HI].
    unfold submitDisabled in Hdis.
    apply orb_false_elim in Hdis as [Hdis _].
    apply orb_false_elim in Hdis as [Hload _].
    rewrite onSubmit_call. cbn [exec].
    set (arg := (_ :: _ : obj)).
    repeat split.
    + unfold isLoading in Hload. count_log. rewrite Hcount, Hload. lia.
    + exact Hgenre.
    + cbn [log]. intros arg' Hin. apply in_app_or in Hin as [Hin|Hin].
      * now apply Hcalls.
      * destruct Hin as [[= <-]|[]].
        exists (values s). split; [assumption|]. split; [assumption|].
        apply onSubmit_call.
  - (* Resolve *)
    destruct (status s) eqn:Hst; try exact HI.
    destruct (awaiting s) as [k|] eqn:Hk; [|exact HI].
    specialize (Haw eq_refl). injection Haw as ->.
    cbn. repeat split; try discriminate.
    + count_log. rewrite Hst in Hcount. lia.
    + exact Hgenre.
    + cbn. intros arg Hin.
      apply in_app_or in Hin as [Hin|[Hin|[]]]; [|discriminate].
      apply in_app_or in Hin as [Hin|[Hin|[]]]; [|discriminate].
      now apply Hcalls.
  - (* Reject *)
    destruct (status s) eqn:Hst; try exact HI.
    cbn. repeat split; try discriminate.
    + count_log. rewrite Hst in Hcount. lia.
    + exact Hgenre.
    + cbn. intros arg Hin.
      apply in_app_or in Hin as [Hin|[Hin|[]]]; [|discriminate].
      now apply Hcalls.
Qed.

(** The invariant holds after every sequence of events. *)
Lemma Inv_run (location : string) (events : list event) :
  Inv book (run book location events).
Proof.
  induction events as [|e events IH] using rev_ind.
  - apply Inv_init.
  - rewrite run_snoc. now apply Inv_step.
Qed.

End Reachable.

(** ** The claims *)

Lemma sampleEdit_log :
  log (run sampleBook "/books" sampleEdit) = [UpdateBookCalled sampleArg].
Proof. reflexivity. Qed.

(** C1. Every record passed to the update mutation carries
    [available = (copies > 0)], computed from the copies it is sent with,
    whatever availability the form held. *)
Theorem submitted_available_recomputed
  (book : IBook.t) (location : string) (events : list event) (arg : obj) :
  In (UpdateBookCalled arg) (log (run book location events)) ->
  exists c : number,
    get arg "copies" = VNum c /\
    get arg "available" = VBool (gt c 0%float).
Proof.
  intros Hin.
  destruct (Inv_run book location events) as (_ & _ & _ & Hcalls).
  destruct (Hcalls arg Hin) as (formData & _ & _ & Hcall).
  rewrite onSubmit_call in Hcall. injection Hcall as <-.
  exists (BookFormValues.copies formData). split; reflexivity.
Qed.

Lemma submitted_available_recomputed_witness :
  exists c : number,
    get sampleArg "copies" = VNum c /\
    get sampleArg "available" = VBool (gt c 0%float).
Proof.
  apply (submitted_available_recomputed sampleBook "/books" sampleEdit).
  rewrite sampleEdit_log. left. reflexivity.
Defined.

(** C7. A submission passes to the update operation the book's [_id] as
    [id] together with all seven form fields, the availability being the
    recomputed one. *)
Theorem submit_sends_full_record (book : IBook.t) (s : ModalState) :
  submitDisabled book s = false ->
  log (step book s Submit) =
  (log s ++
  [ UpdateBookCalled
      [ ("id", VStr (IBook._id book));
        ("title", VStr (BookFormValues.title (values s)));
        ("author", VStr (BookFormValues.author (values s)));
        ("isbn", VStr (BookFormValues.isbn (values s)));
        ("genre", VStr (BookFormValues.genre (values s)));
        ("description", VStr (BookFormValues.description (values s)));
        ("copies", VNum (BookFormValues.copies (values s)));
        ("available",
         VBool (gt (BookFormValues.copies (values s)) 0%float)) ] ])%list.
Proof.
  intros Hen. rewrite (step_submit_enabled book s Hen).
  rewrite onSubmit_call. reflexivity.
Qed.

Lemma submit_sends_full_record_witness :
  log (step sampleBook
         (run sampleBook "/books" [SelectGenre 2; ChangeCopies 0%float])
         Submit)
  = [UpdateBookCalled sampleArg].
Proof.
  apply (submit_sends_full_record sampleBook
           (run sampleBook "/books" [SelectGenre 2; ChangeCopies 0%float])).
  reflexivity.
Defined.

Lemma existsb_false {A} (f : A -> bool) (l : list A) :
  (forall x, In x l -> f x = false) -> existsb f l = false.
Proof.
  induction l as [|a l IH]; intros Hall; [reflexivity|]. cbn.
  rewrite (Hall a (or_introl eq_refl)). apply IH.
  intros x Hx. apply Hall. now right.
Qed.

(** C2. If every watched form value is strictly equal to the field of the
    same name of the original book, the submit control is disabled. *)
Theorem unchanged_form_disables_submit (book : IBook.t) (s : ModalState) :
  (forall key : string,
     In key (keys (formObject (values s))) ->
     strict_eq (get (formObject (values s)) key) (get (bookObject book) key)
     = true) ->
  submitDisabled book s = true.
Proof.
  intros Hsame. unfold submitDisabled.
  assert (hasChanged book (values s) = false) as ->.
  { apply existsb_false. intros key Hkey. unfold strict_neq.
    now rewrite (Hsame key Hkey). }
  destruct (isLoading s); reflexivity.
Qed.

Lemma unchanged_form_disables_submit_witness :
  submitDisabled sampleBook (init sampleBook "/books") = true.
Proof.
  apply (unchanged_form_disables_submit sampleBook (init sampleBook "/books")).
  intros key Hkey. cbn in Hkey.
  repeat (destruct Hkey as [<-|Hkey]; [reflexivity|]).
  destruct Hkey.
Defined.

(** The same for the user: on a book that has its availability flag and
    whose copies are a number, the form as it opens, no field touched, has
    its submit control disabled. *)
Lemma untouched_form_disabled (book : IBook.t) (location : string) :
  IBook.available book <> None ->
  isNaN (IBook.copies book) = false ->
  submitDisabled book (init book location) = true.
Proof.
  intros Hav Hnan. unfold submitDisabled.
  assert (hasChanged book (values (init book location)) = false) as ->.
  { destruct book as [id t a g i d c av]. cbn in *.
    destruct av as [b|]; [|congruence].
    unfold hasChanged, strict_neq. cbn.
    rewrite !String.eqb_refl, (eqb_refl_not_nan c Hnan), Bool.eqb_reflx.
    reflexivity. }
  reflexivity.
Qed.

(** C10. A book without availability flag opens the form with
    [available = true], and the changed-field check then reports a change
    before any edit. *)
Theorem missing_available_counts_as_change (book : IBook.t) :
  IBook.available book = None ->
  BookFormValues.available (defaultValues book) = true /\
  hasChanged book (defaultValues book) = true.
Proof.
  intros Hnone. split.
  - unfold defaultValues. cbn. now rewrite Hnone.
  - unfold hasChanged. apply existsb_exists. exists "available". split.
    + cbn. tauto.
    + unfold strict_neq, defaultValues. cbn. now rewrite Hnone.
Qed.

Lemma missing_available_counts_as_change_witness :
  BookFormValues.available (defaultValues flaglessBook) = true /\
  hasChanged flaglessBook (defaultValues flaglessBook) = true.
Proof.
  apply (missing_available_counts_as_change flaglessBook). reflexivity.
Defined.

Lemma isEmpty_string (text : string) :
  RHF.isEmpty (VStr text) = true -> text = "".
Proof. destruct text; [reflexivity|discriminate]. Qed.

(** C3. A form in which a required field is empty or copies is negative is
    invalid; its submit control is disabled; a press of it changes nothing,
    and neither would [handleSubmit] itself: no update call is made. *)
Theorem invalid_form_never_submits (book : IBook.t) (s : ModalState) :
  (exists key : string,
     In key requiredFields /\
     RHF.isEmpty (get (formObject (values s)) key) = true) \/
  lt (BookFormValues.copies (values s)) 0%float = true ->
  isValid (values s) = false /\
  submitDisabled book s = true /\
  step book s Submit = s /\
  handleSubmit book s = s.
Proof.
  intros Hbad.
  assert (isValid (values s) = false) as Hinvalid.
  { destruct (isValid (values s)) eqn:Hvalid; [exfalso|reflexivity].
    apply isValid_inv in Hvalid as (Ht & Ha & Hi & Hg & Hc).
    destruct Hbad as [(key & Hkey & Hempty)|Hneg]; [|congruence].
    cbn in Hkey.
    destruct Hkey as [<-|[<-|[<-|[<-|[<-|[]]]]]]; cbn in Hempty;
      try discriminate; apply isEmpty_string in Hempty; contradiction. }
  assert (submitDisabled book s = true) as Hdis.
  { unfold submitDisabled. rewrite Hinvalid. apply orb_true_r. }
  repeat split; try assumption.
  - now apply step_submit_disabled.
  - unfold handleSubmit. now rewrite Hinvalid.
Qed.

Lemma invalid_form_never_submits_witness :
  isValid (values untitled) = false /\
  submitDisabled sampleBook untitled = true /\
  step sampleBook untitled Submit = untitled /\
  handleSubmit sampleBook untitled = untitled.
Proof.
  apply (invalid_form_never_submits sampleBook untitled).
  left. exists "title". split; [left|]; reflexivity.
Defined.

(** C4. When a pending update call resolves, the component shows a success
    toast with the response's message, or with the default text when the
    message is missing or empty, and then navigates to [/books]. *)
Theorem resolved_update_toasts_then_navigates
  (book : IBook.t) (location : string) (events : list event)
  (res : UpdateResponse.t) :
  isLoading (run book location events) = true ->
  log (step book (run book location events) (Resolve res)) =
  (log (run book location events) ++
   [ ToastSuccess
       match UpdateResponse.message res with
       | None => "Book updated successfully"
       | Some "" => "Book updated successfully"
       | Some message => message
       end;
     Navigated "/books" ])%list /\
  route (step book (run book location events) (Resolve res)) = "/books".
Proof.
  intros Hload.
  destruct (Inv_run book location events) as (Haw & _).
  unfold isLoading in Hload. cbn [step].
  destruct (status (run book location events)); try discriminate.
  rewrite (Haw eq_refl). cbn. rewrite <- app_assoc. split; reflexivity.
Qed.

Lemma resolved_update_toasts_then_navigates_witness :
  log (step sampleBook (run sampleBook "/books/64f1" sampleEdit)
         (Resolve (UpdateResponse.mk (Some "Updated"))))
  = [UpdateBookCalled sampleArg; ToastSuccess "Updated"; Navigated "/books"]
  /\
  route (step sampleBook (run sampleBook "/books/64f1" sampleEdit)
           (Resolve (UpdateResponse.mk (Some "Updated")))) = "/books".
Proof.
  apply (resolved_update_toasts_then_navigates sampleBook "/books/64f1"
           sampleEdit (UpdateResponse.mk (Some "Updated"))).
  reflexivity.
Defined.

(** C5. When a pending update call fails, the component shows an error
    toast with the message of the error's payload, or with the default text
    when the payload or its message is missing or empty; it does not
    navigate: the route stays what it was, and nothing else is logged. *)
Theorem rejected_update_toasts_error_and_stays
  (book : IBook.t) (location : string) (events : list event)
  (error : IApiError.t) :
  isLoading (run book location events) = true ->
  log (step book (run book location events) (Reject error)) =
  (log (run book location events) ++
   [ ToastError
       match IApiError.data error with
       | None => "Failed to update book"
       | Some d =>
           match IApiError.message d with
           | None => "Failed to update book"
           | Some "" => "Failed to update book"
           | Some message => message
           end
       end ])%list /\
  route (step book (run book location events) (Reject error)) =
  route (run book location events).
Proof.
  intros Hload. unfold isLoading in Hload. cbn [step].
  destruct (status (run book location events)); try discriminate.
  cbn. split; [|reflexivity]. unfold errMsg.
  destruct (IApiError.data error) as [d|]; reflexivity.
Qed.

Lemma rejected_update_toasts_error_and_stays_witness :
  log (step sampleBook (run sampleBook "/books/64f1" sampleEdit)
         (Reject (IApiError.mk (Some (IApiError.mkData (Some "ISBN taken"))))))
  = [UpdateBookCalled sampleArg; ToastError "ISBN taken"]
  /\
  route (step sampleBook (run sampleBook "/books/64f1" sampleEdit)
           (Reject (IApiError.mk (Some (IApiError.mkData (Some "ISBN taken"))))))
  = "/books/64f1".
Proof.
  apply (rejected_update_toasts_error_and_stays sampleBook "/books/64f1"
           sampleEdit
           (IApiError.mk (Some (IApiError.mkData (Some "ISBN taken"))))).
  reflexivity.
Defined.

(** C6. While the update call is in flight the submit control is disabled
    and a press of it changes nothing; in every state the component
    reaches, the calls started then exceed the completed ones by exactly
    the one in flight. *)
Theorem loading_blocks_second_submission
  (book : IBook.t) (location : string) (events : list event) :
  isLoading (run book location events) = true ->
  submitDisabled book (run book location events) = true /\
  step book (run book location events) Submit = run book location events /\
  callsStarted (run book location events) =
  callsCompleted (run book location events) + 1.
Proof.
  intros Hload.
  assert (submitDisabled book (run book location events) = true) as Hdis.
  { unfold submitDisabled. now rewrite Hload. }
  split; [exact Hdis|]. split; [now apply step_submit_disabled|].
  destruct (Inv_run book location events) as (_ & Hcount & _).
  now rewrite Hload in Hcount.
Qed.

Lemma loading_blocks_second_submission_witness :
  submitDisabled sampleBook (run sampleBook "/books" sampleEdit) = true /\
  step sampleBook (run sampleBook "/books" sampleEdit) Submit =
  run sampleBook "/books" sampleEdit /\
  callsStarted (run sampleBook "/books" sampleEdit) =
  callsCompleted (run sampleBook "/books" sampleEdit) + 1.
Proof.
  apply (loading_blocks_second_submission sampleBook "/books" sampleEdit).
  reflexivity.
Defined.

(** ** The form in the browser *)


Section BrowserFacts.

Variable book : IBook.t.

Lemma browserRun_snoc (location : string) (events : list event) (e : event) :
  browserRun book location (events ++ [e]) =
  browserStep book (browserRun book location events) e.
Proof. unfold browserRun. now rewrite fold_left_app. Qed.

(** The browser either blocks a press or hands the event to the form. *)
Lemma browserStep_cases (s : ModalState) (e : event) :
  (e = Submit /\ nativeValid (values s) = false /\ browserStep book s e = s)
  \/
  ((e = Submit -> nativeValid (values s) = true) /\
   browserStep book s e = step book s e).
Proof.
  destruct e; try (right; split; [discriminate|reflexivity]).
  cbn [browserStep]. unfold press.
  destruct (nativeValid (values s)) eqn:Hnative.
  - right. now split.
  - left. now repeat split.
Qed.



(** The runs of the browser are runs of the form. *)
Lemma browserRun_run (location : string) (events : list event) :
  exists events',
    browserRun book location events = run book location events'.
Proof.
  induction events as [|e events [events' IH]] using rev_ind.
  - now exists [].
  - rewrite browserRun_snoc.
    destruct (browserStep_cases (browserRun book location events) e)
      as [(_ & _ & ->)|(_ & ->)].
    + now exists events'.
    + exists (events' ++ [e])%list. now rewrite run_snoc, IH.
Qed.

End BrowserFacts.

(** The browser blocks the press on a fraction: with copies 1.5 the button
    is enabled, yet nothing is sent. *)
Lemma fractional_copies_blocked :
  submitDisabled sampleBook
    (browserRun sampleBook "/books" [ChangeCopies 1.5%float]) = false /\
  log (browserRun sampleBook "/books" [ChangeCopies 1.5%float; Submit]) = [].
Proof. split; reflexivity. Qed.


(** C8, as the code has it. The genre select offers exactly the six values
    FICTION, NON_FICTION, SCIENCE, HISTORY, BIOGRAPHY and FANTASY and the
    genre field is required; the genre of every record passed to the update
    mutation is not empty and is one of the offered values or the genre the
    book came with, which the form takes over unchecked. *)
Theorem submitted_genre_offered_or_original
  (book : IBook.t) (location : string) (events : list event) (arg : obj) :
  In (UpdateBookCalled arg) (log (run book location events)) ->
  map fst genreOptions =
  [ "FICTION"; "NON_FICTION"; "SCIENCE"; "HISTORY"; "BIOGRAPHY"; "FANTASY" ]
  /\
  exists genre : string,
    get arg "genre" = VStr genre /\
    genre <> "" /\
    (In genre (map fst genreOptions) \/ genre = IBook.genre book).
Proof.
  intros Hin. split; [reflexivity|].
  destruct (Inv_run book location events) as (_ & _ & _ & Hcalls).
  destruct (Hcalls arg Hin) as (formData & Hvalid & Hgenre & Hcall).
  rewrite onSubmit_call in Hcall. injection Hcall as <-.
  apply isValid_inv in Hvalid as (_ & _ & _ & Hg & _).
  exists (BookFormValues.genre formData).
  split; [reflexivity|]. split; [exact Hg|]. exact Hgenre.
Qed.

Lemma submitted_genre_offered_or_original_witness :
  map fst genreOptions =
  [ "FICTION"; "NON_FICTION"; "SCIENCE"; "HISTORY"; "BIOGRAPHY"; "FANTASY" ]
  /\
  exists genre : string,
    get sampleArg "genre" = VStr genre /\
    genre <> "" /\
    (In genre (map fst genreOptions) \/ genre = IBook.genre sampleBook).
Proof.
  apply (submitted_genre_offered_or_original sampleBook "/books" sampleEdit).
  rewrite sampleEdit_log. left. reflexivity.
Defined.

(** C8, as stated, fails: a book of genre POETRY opens the form with that
    genre; the user retitles it and presses the submit button (the copies,
    3, pass the browser's validation); the record sent has the genre
    POETRY, which is none of the six. *)
Lemma foreign_genre_submitted :
  log (browserRun poetryBook "/books" sampleRename) =
  [ UpdateBookCalled
      [ ("id", VStr "77a0"); ("title", VStr "Dune Messiah");
        ("author", VStr "Sylvia Plath"); ("isbn", VStr "9780571086269");
        ("genre", VStr "POETRY"); ("description", VStr "Poems");
        ("copies", VNum 3%float); ("available", VBool true) ] ] /\
  ~ In "POETRY"
      [ "FICTION"; "NON_FICTION"; "SCIENCE"; "HISTORY"; "BIOGRAPHY";
        "FANTASY" ].
Proof.
  split; [reflexivity|].
  cbn. intros [H|[H|[H|[H|[H|[H|[]]]]]]]; discriminate.
Qed.




(** ** Further properties of the form *)

(** X2. The form is valid exactly when title, author, ISBN and genre are
    not empty and copies is not below zero; the description and the
    availability flag play no part, and a copies value that is zero or
    [NaN] is accepted. *)
Theorem isValid_iff (v : BookFormValues.t) :
  isValid v = true <->
  BookFormValues.title v <> "" /\
  BookFormValues.author v <> "" /\
  BookFormValues.isbn v <> "" /\
  BookFormValues.genre v <> "" /\
  lt (BookFormValues.copies v) 0%float = false.
Proof.
  split; [apply isValid_inv|].
  destruct v as [t a i g d c av]. cbn [BookFormValues.title
    BookFormValues.author BookFormValues.isbn BookFormValues.genre
    BookFormValues.copies].
  intros (Ht & Ha & Hi & Hg & Hc).
  destruct t; [congruence|]. destruct a; [congruence|].
  destruct i; [congruence|]. destruct g; [congruence|].
  unfold isValid, fieldErrors. cbn. unfold RHF.validateMin.
  destruct (isNaN c); [reflexivity|].
  unfold lt in *. cbn in Hc |- *. now rewrite Hc.
Qed.

(** X3. The changed-field check reports no change exactly when all seven
    form values agree with the book: the five texts are the same strings,
    copies is the same number under [===], and the book has an availability
    flag equal to the form's. *)
Theorem hasChanged_false_iff (book : IBook.t) (v : BookFormValues.t) :
  hasChanged book v = false <->
  BookFormValues.title v = IBook.title book /\
  BookFormValues.author v = IBook.author book /\
  BookFormValues.isbn v = IBook.isbn book /\
  BookFormValues.genre v = IBook.genre book /\
  BookFormValues.description v = IBook.description book /\
  PrimFloat.eqb (BookFormValues.copies v) (IBook.copies book) = true /\
  IBook.available book = Some (BookFormValues.available v).
Proof.
  destruct book as [id bt ba bg bi bd bc bav], v as [t a i g d c av].
  unfold hasChanged, strict_neq. cbn.
  rewrite !orb_false_iff, !negb_false_iff, !String.eqb_eq.
  destruct bav as [b|]; cbn.
  - rewrite Bool.eqb_true_iff. intuition congruence.
  - intuition congruence.
Qed.

(** A log of complete rounds can be read on from its end. *)
Lemma protocol_app_fuel (n : nat) (l r : list effect) :
  length l <= n -> protocol l = Some false -> protocol (l ++ r) = protocol r.
Proof.
  revert l. induction n as [|n IH]; intros l Hlen Hl.
  - destruct l; [reflexivity|cbn in Hlen; lia].
  - destruct l as [|[arg|m|m|to] l]; try discriminate; [reflexivity|].
    destruct l as [|[arg'|m|m|to] l]; try discriminate.
    + destruct l as [|[arg'|m'|m'|to] l]; try discriminate.
      cbn in Hl |- *. destruct (String.eqb to "/books"); [|discriminate].
      apply IH; [cbn in Hlen; lia|exact Hl].
    + cbn in Hl |- *. apply IH; [cbn in Hlen; lia|exact Hl].
Qed.

Lemma protocol_app (l r : list effect) :
  protocol l = Some false -> protocol (l ++ r) = protocol r.
Proof. apply (protocol_app_fuel (length l)). lia. Qed.

(** ** Further properties of the runs *)

Section Runs.

Variable book : IBook.t.

(** What one event does to a state the component can be in: nothing to
    the log, the route and the pending call (an edit, an ignored press or
    completion); or it starts a call; or it completes the pending call,
    well or badly.  No event edits the availability flag of the form. *)
Lemma step_effects (s : ModalState) (e : event) :
  Inv book s ->
  BookFormValues.available (values (step book s e)) =
  BookFormValues.available (values s) /\
  ((log (step book s e) = log s /\
    route (step book s e) = route s /\
    isLoading (step book s e) = isLoading s) \/
   (isLoading s = false /\ isLoading (step book s e) = true /\
    route (step book s e) = route s /\
    exists arg, log (step book s e) = (log s ++ [UpdateBookCalled arg])%list)
   \/
   (isLoading s = true /\ isLoading (step book s e) = false /\
    route (step book s e) = "/books" /\
    exists message,
      log (step book s e) =
      (log s ++ [ToastSuccess message; Navigated "/books"])%list) \/
   (isLoading s = true /\ isLoading (step book s e) = false /\
    route (step book s e) = route s /\
    exists message,
      log (step book s e) = (log s ++ [ToastError message])%list)).
Proof.
  intros (Haw & _).
  destruct e; cbn [step];
    try (split; [reflexivity|left; repeat split; reflexivity]).
  - (* SelectGenre *)
    destruct (nth_error genreOptions item) as [[g l]|];
      (split; [reflexivity|left; repeat split; reflexivity]).
  - (* Submit *)
    destruct (submitDisabled book s) eqn:Hdis;
      [split; [reflexivity|left; repeat split; reflexivity]|].
    unfold handleSubmit. destruct (isValid (values s));
      [|split; [reflexivity|left; repeat split; reflexivity]].
    unfold submitDisabled in Hdis.
    apply orb_false_elim in Hdis as [Hdis _].
    apply orb_false_elim in Hdis as [Hload _].
    rewrite onSubmit_call. cbn [exec].
    split; [reflexivity|]. right; left.
    repeat split; [exact Hload|]. eexists. reflexivity.
  - (* Resolve *)
    unfold isLoading.
    destruct (status s) eqn:Hst;
      try (split; [reflexivity|left; rewrite ?Hst; repeat split; reflexivity]).
    rewrite (Haw eq_refl). cbn. split; [reflexivity|]. do 2 right; left.
    repeat split. eexists. rewrite <- app_assoc. reflexivity.
  - (* Reject *)
    unfold isLoading.
    destruct (status s) eqn:Hst;
      try (split; [reflexivity|left; rewrite ?Hst; repeat split; reflexivity]).
    cbn. split; [reflexivity|]. do 3 right.
    repeat split. eexists. reflexivity.
Qed.

(** X4. No event edits the availability flag of the form: in every state
    the component reaches it is the flag the form opened with, the book's
    own or [true] when the book has none. *)
Theorem form_available_never_edited
  (location : string) (events : list event) :
  BookFormValues.available (values (run book location events)) =
  match IBook.available book with
  | Some flag => flag
  | None => true
  end.
Proof.
  induction events as [|e events IH] using rev_ind.
  - cbn. destruct (IBook.available book); reflexivity.
  - rewrite run_snoc.
    destruct (step_effects (run book location events) e
                (Inv_run book location events)) as [-> _].
    exact IH.
Qed.

(** X5. The effects of the component come in rounds: each call of the
    update operation is answered by a success toast followed by the
    navigation to [/books], or by an error toast, before the next call is
    made; the last call is unanswered exactly while the hook is loading. *)
Theorem log_follows_protocol (location : string) (events : list event) :
  protocol (log (run book location events)) =
  Some (isLoading (run book location events)).
Proof.
  enough (if isLoading (run book location events)
          then exists l arg,
                 log (run book location events) =
                 (l ++ [UpdateBookCalled arg])%list /\
                 protocol l = Some false
          else protocol (log (run book location events)) = Some false) as H.
  { destruct (isLoading (run book location events)); [|exact H].
    destruct H as (l & arg & -> & Hl). now rewrite (protocol_app _ _ Hl). }
  induction events as [|e events IH] using rev_ind; [reflexivity|].
  rewrite run_snoc.
  destruct (step_effects (run book location events) e
              (Inv_run book location events))
    as [_ [(Hlog & _ & Hload)|[(H0 & H1 & _ & arg & Hlog)
          |[(H0 & H1 & _ & m & Hlog)|(H0 & H1 & _ & m & Hlog)]]]].
  - now rewrite Hlog, Hload.
  - rewrite H1, Hlog. rewrite H0 in IH. now exists (log (run book location events)), arg.
  - rewrite H1, Hlog. rewrite H0 in IH. destruct IH as (l & arg & -> & Hl).
    rewrite <- app_assoc. now rewrite (protocol_app _ _ Hl).
  - rewrite H1, Hlog. rewrite H0 in IH. destruct IH as (l & arg & -> & Hl).
    rewrite <- app_assoc. now rewrite (protocol_app _ _ Hl).
Qed.

(** X6. The route changes only by a successful update: it is [/books] once
    a success toast was shown, and until then the route at which the dialog
    opened. *)
Theorem route_changes_only_on_success
  (location : string) (events : list event) :
  route (run book location events) =
  if existsb isSuccess (log (run book location events))
  then "/books" else location.
Proof.
  induction events as [|e events IH] using rev_ind; [reflexivity|].
  rewrite run_snoc.
  destruct (step_effects (run book location events) e
              (Inv_run book location events))
    as [_ [(Hlog & Hroute & _)|[(_ & _ & Hroute & arg & Hlog)
          |[(_ & _ & Hroute & m & Hlog)|(_ & _ & Hroute & m & Hlog)]]]];
    rewrite Hlog, Hroute, ?existsb_app; cbn; rewrite ?orb_false_r, ?orb_true_r;
    try exact IH; reflexivity.
Qed.

End Runs.

Section Submissions.

Variable book : IBook.t.

(** X7. A failed update can be tried again: after an enabled submit whose
    call is rejected, the form holds the values it was submitted with and
    the submit control is enabled again. *)
Theorem failed_update_can_be_retried (s : ModalState) (error : IApiError.t) :
  submitDisabled book s = false ->
  values (step book (step book s Submit) (Reject error)) = values s /\
  submitDisabled book (step book (step book s Submit) (Reject error)) = false.
Proof.
  intros Hen.
  assert (values (step book (step book s Submit) (Reject error)) = values s /\
          isLoading (step book (step book s Submit) (Reject error)) = false)
    as [Hvalues Hload].
  { rewrite (step_submit_enabled book s Hen), onSubmit_call.
    split; reflexivity. }
  split; [exact Hvalues|].
  unfold submitDisabled in *. rewrite Hvalues, Hload.
  apply orb_false_elim in Hen as [Hen Hvalid].
  apply orb_false_elim in Hen as [_ Hchanged].
  now rewrite Hchanged, Hvalid.
Qed.

(** X8. No record is ever sent with an empty title, author or ISBN. *)
Theorem submitted_texts_not_empty
  (location : string) (events : list event) (arg : obj) :
  In (UpdateBookCalled arg) (log (run book location events)) ->
  exists title author isbn : string,
    get arg "title" = VStr title /\ title <> "" /\
    get arg "author" = VStr author /\ author <> "" /\
    get arg "isbn" = VStr isbn /\ isbn <> "".
Proof.
  intros Hin.
  destruct (Inv_run book location events) as (_ & _ & _ & Hcalls).
  destruct (Hcalls arg Hin) as (formData & Hvalid & _ & Hcall).
  rewrite onSubmit_call in Hcall. injection Hcall as <-.
  apply isValid_inv in Hvalid as (Ht & Ha & Hi & _).
  exists (BookFormValues.title formData), (BookFormValues.author formData),
    (BookFormValues.isbn formData).
  repeat split; assumption.
Qed.

(** X9. Every record sent has the same eight properties, [id] first, and
    its [id] is the [_id] of the book the dialog was opened for: no edit
    changes which book is updated, and the book's [_id] key itself is not
    sent. *)
Theorem submitted_record_shape
  (location : string) (events : list event) (arg : obj) :
  In (UpdateBookCalled arg) (log (run book location events)) ->
  keys arg =
  [ "id"; "title"; "author"; "isbn"; "genre"; "description"; "copies";
    "available" ] /\
  get arg "id" = VStr (IBook._id book) /\
  get arg "_id" = VUndefined.
Proof.
  intros Hin.
  destruct (Inv_run book location events) as (_ & _ & _ & Hcalls).
  destruct (Hcalls arg Hin) as (formData & _ & _ & Hcall).
  rewrite onSubmit_call in Hcall. injection Hcall as <-.
  repeat split.
Qed.

(** X10. Until the submit control is pressed nothing is sent, shown or
    navigated, whatever is typed and whatever arrives from the network. *)
Theorem nothing_happens_before_submit
  (location : string) (events : list event) :
  ~ In Submit events ->
  log (run book location events) = [] /\
  route (run book location events) = location /\
  isLoading (run book location events) = false.
Proof.
  intros Hno.
  enough (log (run book location events) = [] /\
          route (run book location events) = location /\
          status (run book location events) = Uninitialized) as (Hl & Hr & Hs).
  { repeat split; try assumption. unfold isLoading. now rewrite Hs. }
  induction events as [|e events IH] using rev_ind; [now repeat split|].
  rewrite run_snoc.
  destruct IH as (Hl & Hr & Hs).
  { intros Hin. apply Hno, in_or_app. now left. }
  destruct e; cbn [step]; try rewrite Hs; try (now repeat split).
  - destruct (nth_error genreOptions item) as [[g l]|]; now repeat split.
  - exfalso. apply Hno, in_or_app. right. now left.
Qed.

(** X11. At most one call is in flight, and the button says so: in every
    state the component reaches, the calls started are the calls completed,
    plus one exactly when the button reads "Updating...". *)
Theorem updating_label_counts_in_flight
  (location : string) (events : list event) :
  callsStarted (run book location events) =
  callsCompleted (run book location events) +
  (if String.eqb (submitLabel (run book location events)) "Updating..."
   then 1 else 0).
Proof.
  destruct (Inv_run book location events) as (_ & Hcount & _).
  rewrite Hcount. unfold submitLabel.
  destruct (isLoading (run book location events)); reflexivity.
Qed.

End Submissions.

Lemma failed_update_can_be_retried_witness :
  values
    (step sampleBook
       (step sampleBook (run sampleBook "/books" [ChangeCopies 5%float])
          Submit)
       (Reject (IApiError.mk None))) =
  values (run sampleBook "/books" [ChangeCopies 5%float]) /\
  submitDisabled sampleBook
    (step sampleBook
       (step sampleBook (run sampleBook "/books" [ChangeCopies 5%float])
          Submit)
       (Reject (IApiError.mk None))) = false.
Proof.
  apply (failed_update_can_be_retried sampleBook
           (run sampleBook "/books" [ChangeCopies 5%float])
           (IApiError.mk None)).
  reflexivity.
Defined.

Lemma submitted_texts_not_empty_witness :
  exists title author isbn : string,
    get sampleArg "title" = VStr title /\ title <> "" /\
    get sampleArg "author" = VStr author /\ author <> "" /\
    get sampleArg "isbn" = VStr isbn /\ isbn <> "".
Proof.
  apply (submitted_texts_not_empty sampleBook "/books" sampleEdit).
  rewrite sampleEdit_log. left. reflexivity.
Defined.

Lemma submitted_record_shape_witness :
  keys sampleArg =
  [ "id"; "title"; "author"; "isbn"; "genre"; "description"; "copies";
    "available" ] /\
  get sampleArg "id" = VStr (IBook._id sampleBook) /\
  get sampleArg "_id" = VUndefined.
Proof.
  apply (submitted_record_shape sampleBook "/books" sampleEdit).
  rewrite sampleEdit_log. left. reflexivity.
Defined.

Lemma nothing_happens_before_submit_witness :
  log (run sampleBook "/books/64f1"
         [ChangeTitle ""; Resolve (UpdateResponse.mk None); SelectGenre 4])
  = [] /\
  route (run sampleBook "/books/64f1"
           [ChangeTitle ""; Resolve (UpdateResponse.mk None); SelectGenre 4])
  = "/books/64f1" /\
  isLoading (run sampleBook "/books/64f1"
               [ChangeTitle ""; Resolve (UpdateResponse.mk None);
                SelectGenre 4])
  = false.
Proof.
  apply (nothing_happens_before_submit sampleBook "/books/64f1").
  cbn. intros [H|[H|[H|[]]]]; discriminate.
Defined.
